(** * Bull chat client ([src/App.jsx]): model and verified properties

    The React component [App] is embedded as a transition system.  Its
    [useState] cells form the record [AppState]; everything the component
    touches outside of React (the browser's [localStorage], the Firestore
    collection, the auth service, the console) forms the record [World].
    Each callback of the component is a function on [World]; the outcome
    of a call into the Firebase SDK or of [Math.random] is supplied by the
    event that triggers the callback. *)

From Stdlib Require Import ZArith NArith List Lia String Ascii Sorted Permutation.
From stdpp Require Import base option list gmap sorting.

Local Open Scope Z_scope.

(** ** JavaScript strings

    A JavaScript string is a sequence of UTF-16 code units. *)

Abbreviation jsstring := (list N).

Fixpoint str (s : String.string) : jsstring :=
  match s with
  | EmptyString => []
  | String a r => N_of_ascii a :: str r
  end.

(** [WhiteSpace] and [LineTerminator] code points of ECMAScript, the set
    that [String.prototype.trim] strips. *)
Definition isWhiteSpace (c : N) : bool :=
  ((9 <=? c) && (c <=? 13) ||
   (c =? 32) || (c =? 160) || (c =? 5760) ||
   ((8192 <=? c) && (c <=? 8202)) ||
   (c =? 8232) || (c =? 8233) || (c =? 8239) || (c =? 8287) ||
   (c =? 12288) || (c =? 65279))%N.

Fixpoint trimStart (s : jsstring) : jsstring :=
  match s with
  | c :: r => if isWhiteSpace c then trimStart r else s
  | [] => []
  end.

Definition trimEnd (s : jsstring) : jsstring := rev (trimStart (rev s)).

Definition trim (s : jsstring) : jsstring := trimEnd (trimStart s).

(** [s.substring(n)] for [0 <= n]. *)
Definition substring (n : nat) (s : jsstring) : jsstring := drop n s.

(** Truthiness of a value of type [string | null] (or [string | undefined]):
    [null], [undefined] and the empty string are falsy. *)
Definition truthy (v : option jsstring) : bool :=
  match v with
  | Some (_ :: _) => true
  | _ => false
  end.

(** [!v] for an object handle of type [T | null]. *)
Definition isNull {T : Type} (v : option T) : bool :=
  match v with
  | Some _ => false
  | None => true
  end.

(** [a || b] on such values. *)
Definition or_else (a b : option jsstring) : option jsstring :=
  if truthy a then a else b.

(** ** Messages *)

(** A Firestore [Timestamp]; only [toMillis()] is used for ordering. *)
Record Timestamp := { toMillis : Z }.

(** A message object as held in the [messages] state.  A field that the
    document does not carry is [None] ([undefined] in the source). *)
Record Message := {
  msg_id : jsstring;
  senderId : option jsstring;
  senderName : option jsstring;
  text : option jsstring;
  timestamp : option Timestamp
}.

(** A document of a query snapshot: [doc.id] and the fields of
    [doc.data()]. *)
Record Doc := {
  doc_id : jsstring;
  doc_senderId : option jsstring;
  doc_senderName : option jsstring;
  doc_text : option jsstring;
  doc_timestamp : option Timestamp
}.

(** [{ id: doc.id, ...doc.data() }] *)
Definition fetchedMessage (d : Doc) : Message :=
  {| msg_id := doc_id d;
     senderId := doc_senderId d;
     senderName := doc_senderName d;
     text := doc_text d;
     timestamp := doc_timestamp d |}.

(** [m.timestamp?.toMillis() || 0]: a missing timestamp yields
    [undefined], which [||] turns into [0]; so does a timestamp whose
    [toMillis()] is [0]. *)
Definition millisOr0 (m : Message) : Z :=
  match timestamp m with
  | Some t => if toMillis t =? 0 then 0 else toMillis t
  | None => 0
  end.

(** The comparator passed to [sort]. *)
Definition compareFn (a b : Message) : Z := millisOr0 a - millisOr0 b.

(** ** [Array.prototype.sort]

    The sort is stable: of two elements that the comparator does not
    order, the one that came first stays first.  For a consistent
    comparator this fixes the result, whatever algorithm the engine
    uses. *)
Section ArraySort.
Context {A : Type} (cmp : A -> A -> Z).

Fixpoint sort_insert (x : A) (l : list A) : list A :=
  match l with
  | [] => [x]
  | y :: r => if cmp x y <=? 0 then x :: y :: r else y :: sort_insert x r
  end.

Definition Array_sort (l : list A) : list A := foldr sort_insert [] l.
End ArraySort.

(** The callback given to [onSnapshot]: collect the documents, sort them
    in memory, publish them. *)
Definition sortedMessages (docs : list Doc) : list Message :=
  Array_sort compareFn (map fetchedMessage docs).

(** ** The runtime environment

    [JSON.parse] yields a value or throws. *)
#[warnings="-register-all"]
Inductive json :=
| JNull
| JBool (b : bool)
| JNumber (z : Z)
| JString (s : jsstring)
| JArray (items : list json)
| JObject (fields : list (jsstring * json)).

Inductive parsed :=
| JSON_value (v : json)
| JSON_throws (message : jsstring).

(** [Object.keys(v).length]; [Object.keys(null)] throws a [TypeError]
    ([None]).  The fields of a parsed object have distinct names. *)
Definition Object_keys_length (v : json) : option nat :=
  match v with
  | JNull => None
  | JBool _ | JNumber _ => Some 0%nat
  | JString s => Some (length s)
  | JArray items => Some (length items)
  | JObject fields => Some (length fields)
  end.

(** The globals the hosting page provides, typed as the source declares
    them ([string | undefined]).  [firebase_config] holds what
    [JSON.parse(__firebase_config)] evaluates to when the global is
    defined. *)
Record Env := {
  app_id : option jsstring;
  firebase_config : option parsed;
  initial_auth_token : option jsstring
}.

(** Handles returned by the SDK. *)
Inductive Firestore := getFirestore (config : json).
Inductive Auth := getAuth (config : json).

(** Whether [initializeApp], [getFirestore] and [getAuth] return or one
    of them throws. *)
Inductive sdk_outcome :=
| SdkReady
| SdkThrows (message : jsstring).

(** ** State *)

Record AppState := {
  messages : list Message;
  newMessage : jsstring;
  userId : option jsstring;
  userName : option jsstring;
  db : option Firestore;
  auth : option Auth;
  loading : bool;
  error : option jsstring
}.

(** The value of the [timestamp] field of a write. *)
Inductive FieldValue :=
| serverTimestamp
| clientMillis (t : Z).

(** A call [addDoc(collection(db, path), data)]. *)
Record Write := {
  wr_path : jsstring;
  wr_senderId : jsstring;
  wr_senderName : jsstring;
  wr_text : jsstring;
  wr_timestamp : FieldValue
}.

Inductive signIn_call :=
| signInWithCustomToken (token : jsstring)
| signInAnonymously.

Record World := {
  state : AppState;
  localStorage : gmap (list N) (list N);
  addDoc_calls : list Write;       (* every write issued, oldest first *)
  accepted_writes : list Write;    (* the writes the backend accepted *)
  signIn_calls : list signIn_call;
  console_error : list jsstring    (* first argument of each console.error *)
}.

(** The [useState] initial values. *)
Definition initialState : AppState :=
  {| messages := []; newMessage := []; userId := None; userName := None;
     db := None; auth := None; loading := true; error := None |}.

(** A page load: fresh component state, storage as the browser kept it. *)
Definition pageLoad (storage : gmap (list N) (list N)) : World :=
  {| state := initialState; localStorage := storage; addDoc_calls := [];
     accepted_writes := []; signIn_calls := []; console_error := [] |}.

(** State setters. *)
Definition setState (f : AppState -> AppState) (w : World) : World :=
  {| state := f (state w); localStorage := localStorage w;
     addDoc_calls := addDoc_calls w; accepted_writes := accepted_writes w;
     signIn_calls := signIn_calls w; console_error := console_error w |}.

Definition setMessages (v : list Message) : World -> World :=
  setState (fun s =>
    {| messages := v; newMessage := newMessage s; userId := userId s;
       userName := userName s; db := db s; auth := auth s;
       loading := loading s; error := error s |}).

Definition setNewMessage (v : jsstring) : World -> World :=
  setState (fun s =>
    {| messages := messages s; newMessage := v; userId := userId s;
       userName := userName s; db := db s; auth := auth s;
       loading := loading s; error := error s |}).

Definition setUserId (v : jsstring) : World -> World :=
  setState (fun s =>
    {| messages := messages s; newMessage := newMessage s; userId := Some v;
       userName := userName s; db := db s; auth := auth s;
       loading := loading s; error := error s |}).

Definition setUserName (v : jsstring) : World -> World :=
  setState (fun s =>
    {| messages := messages s; newMessage := newMessage s; userId := userId s;
       userName := Some v; db := db s; auth := auth s;
       loading := loading s; error := error s |}).

Definition setDb (v : Firestore) : World -> World :=
  setState (fun s =>
    {| messages := messages s; newMessage := newMessage s; userId := userId s;
       userName := userName s; db := Some v; auth := auth s;
       loading := loading s; error := error s |}).

Definition setAuth (v : Auth) : World -> World :=
  setState (fun s =>
    {| messages := messages s; newMessage := newMessage s; userId := userId s;
       userName := userName s; db := db s; auth := Some v;
       loading := loading s; error := error s |}).

Definition setLoading (v : bool) : World -> World :=
  setState (fun s =>
    {| messages := messages s; newMessage := newMessage s; userId := userId s;
       userName := userName s; db := db s; auth := auth s;
       loading := v; error := error s |}).

Definition setError (v : jsstring) : World -> World :=
  setState (fun s =>
    {| messages := messages s; newMessage := newMessage s; userId := userId s;
       userName := userName s; db := db s; auth := auth s;
       loading := loading s; error := Some v |}).

Definition console_log_error (tag : jsstring) (w : World) : World :=
  {| state := state w; localStorage := localStorage w;
     addDoc_calls := addDoc_calls w; accepted_writes := accepted_writes w;
     signIn_calls := signIn_calls w;
     console_error := console_error w ++ [tag] |}.

Definition localStorage_setItem (k v : jsstring) (w : World) : World :=
  {| state := state w; localStorage := <[k := v]> (localStorage w);
     addDoc_calls := addDoc_calls w; accepted_writes := accepted_writes w;
     signIn_calls := signIn_calls w; console_error := console_error w |}.

Definition localStorage_getItem (k : jsstring) (w : World) : option jsstring :=
  localStorage w !! k.

Definition record_signIn (c : signIn_call) (w : World) : World :=
  {| state := state w; localStorage := localStorage w;
     addDoc_calls := addDoc_calls w; accepted_writes := accepted_writes w;
     signIn_calls := signIn_calls w ++ [c]; console_error := console_error w |}.

(** [addDoc]: the call is issued; the record joins the accepted_writes when
    the backend accepts it. *)
Definition addDoc (data : Write) (accepted : bool) (w : World) : World :=
  {| state := state w; localStorage := localStorage w;
     addDoc_calls := addDoc_calls w ++ [data];
     accepted_writes := if accepted then accepted_writes w ++ [data] else accepted_writes w;
     signIn_calls := signIn_calls w; console_error := console_error w |}.

(** ** The callbacks of the component *)

(** The collection path, [artifacts/${__app_id || 'default-app-id'}/public/data/messages]. *)
Definition messagesPath (env : Env) : jsstring :=
  str "artifacts/" ++
  default [] (or_else (app_id env) (Some (str "default-app-id"))) ++
  str "/public/data/messages".

Definition chatUserName : jsstring := str "chatUserName".

(** Lines 41-47: the stored name when [getItem] returns a truthy string,
    otherwise [`User-${Math.random().toString(36).substring(7)}`], where
    [rnd] stands for [Math.random().toString(36)]. *)
Definition loadUserName (rnd : jsstring) (w : World) : World :=
  let storedUserName := localStorage_getItem chatUserName w in
  if truthy storedUserName
  then setUserName (default [] storedUserName) w
  else setUserName (str "User-" ++ substring 7 rnd) w.

(** The [catch] block of [initializeFirebase]. *)
Definition initializationFailed (message : jsstring) (w : World) : World :=
  setLoading false
    (setError (str "Failed to initialize Firebase: " ++ message)
       (console_log_error (str "Firebase Initialization Error:") w)).

Definition initializeFirebase
    (env : Env) (rnd : jsstring) (sdk : sdk_outcome) (w : World) : World :=
  let firebaseConfig :=
    match firebase_config env with
    | Some p => p
    | None => JSON_value (JObject [])
    end in
  match firebaseConfig with
  | JSON_throws message => initializationFailed message w
  | JSON_value config =>
      match Object_keys_length config with
      | None =>
          initializationFailed
            (str "Cannot convert undefined or null to object") w
      | Some O =>
          initializationFailed (str "Firebase config not provided.") w
      | Some (S _) =>
          match sdk with
          | SdkThrows message => initializationFailed message w
          | SdkReady =>
              loadUserName rnd
                (setAuth (getAuth config) (setDb (getFirestore config) w))
          end
      end
  end.

(** The listener given to [onAuthStateChanged].  [user] is the [uid] of
    the signed-in user, if any; [signIn] is the message of the error that
    the sign-in attempt rejects with, if it does. *)
Definition authStateChanged
    (env : Env) (user : option jsstring) (signIn : option jsstring)
    (w : World) : World :=
  match user with
  | Some uid => setLoading false (setUserId uid w)
  | None =>
      let w1 :=
        match initial_auth_token env with
        | Some token => record_signIn (signInWithCustomToken token) w
        | None => record_signIn signInAnonymously w
        end in
      match signIn with
      | None => w1
      | Some message =>
          setLoading false
            (setError (str "Authentication failed: " ++ message)
               (console_log_error (str "Firebase Auth Error:") w1))
      end
  end.

(** The feed subscription exists while [db && userId] holds. *)
Definition subscribed (w : World) : bool :=
  negb (isNull (db (state w))) && truthy (userId (state w)).

Definition onSnapshot_next (docs : list Doc) (w : World) : World :=
  setMessages (sortedMessages docs) w.

Definition onSnapshot_error (message : jsstring) (w : World) : World :=
  setError (str "Failed to fetch messages: " ++ message)
    (console_log_error (str "Error fetching messages:") w).

(** [handleSendMessage].  [sendBlocked] is the guard
    [newMessage.trim() === '' || !db || !userId || !userName]; [failure]
    is the message of the error [addDoc] rejects with, [None] when the
    write is accepted. *)
Definition sendBlocked (s : AppState) : bool :=
  bool_decide (trim (newMessage s) = []) || isNull (db s)
  || negb (truthy (userId s)) || negb (truthy (userName s)).

Definition handleSendMessage
    (env : Env) (failure : option jsstring) (w : World) : World :=
  let s := state w in
  if sendBlocked s then w
  else
    let data :=
      {| wr_path := messagesPath env;
         wr_senderId := default [] (userId s);
         wr_senderName := default [] (userName s);
         wr_text := newMessage s;
         wr_timestamp := serverTimestamp |} in
    match failure with
    | None => setNewMessage [] (addDoc data true w)
    | Some message =>
        setError (str "Failed to send message: " ++ message)
          (console_log_error (str "Error sending message:")
             (addDoc data false w))
    end.

Definition handleUserNameChange (newName : jsstring) (w : World) : World :=
  localStorage_setItem chatUserName newName (setUserName newName w).

(** ** The view *)

Inductive Justify := justify_end | justify_start.

(** One message bubble: alignment, the sender label and the body. *)
Record Bubble := {
  key : jsstring;
  justify : Justify;
  label : option jsstring;
  body : option jsstring
}.

(** [msg.senderId === userId] *)
Definition isOwn (viewer : option jsstring) (msg : Message) : bool :=
  match senderId msg, viewer with
  | Some a, Some b => bool_decide (a = b)
  | _, _ => false
  end.

Definition renderMessage (viewer : option jsstring) (msg : Message) : Bubble :=
  {| key := msg_id msg;
     justify := if isOwn viewer msg then justify_end else justify_start;
     label := if isOwn viewer msg then Some (str "You")
              else or_else (senderName msg) (senderId msg);
     body := text msg |}.

Inductive Screen :=
| LoadingScreen
| ErrorScreen (message : jsstring)
| ChatScreen (shownUserId : option jsstring) (nameInput : jsstring)
    (emptyHint : bool) (bubbles : list Bubble) (messageInput : jsstring).

Definition render (s : AppState) : Screen :=
  if loading s then LoadingScreen
  else match error s with
       | Some (c :: message) => ErrorScreen (c :: message)
       | _ =>
           ChatScreen
             (if truthy (userId s) then userId s else None)
             (default [] (or_else (userName s) (Some [])))
             (bool_decide (length (messages s) = 0%nat))
             (map (renderMessage (userId s)) (messages s))
             (newMessage s)
       end.

Definition chatShown (s : AppState) : bool :=
  match render s with
  | ChatScreen _ _ _ _ _ => true
  | _ => false
  end.

(** ** The component as a transition system *)

Inductive event :=
| Mount (rnd : jsstring) (sdk : sdk_outcome)
| AuthStateChanged (user : option jsstring) (signIn : option jsstring)
| Snapshot (docs : list Doc)
| SnapshotError (message : jsstring)
| Submit (failure : option jsstring)
| NameInput (value : jsstring)
| MessageInput (value : jsstring).

(** A callback runs only while the thing that invokes it exists: the
    auth listener once [getAuth] returned, the feed callbacks while the
    subscription is open, the form handlers while the chat is on screen. *)
Definition step (env : Env) (w : World) (e : event) : World :=
  match e with
  | Mount rnd sdk => initializeFirebase env rnd sdk w
  | AuthStateChanged user signIn =>
      match auth (state w) with
      | Some _ => authStateChanged env user signIn w
      | None => w
      end
  | Snapshot docs => if subscribed w then onSnapshot_next docs w else w
  | SnapshotError message =>
      if subscribed w then onSnapshot_error message w else w
  | Submit failure =>
      if chatShown (state w) then handleSendMessage env failure w else w
  | NameInput value =>
      if chatShown (state w) then handleUserNameChange value w else w
  | MessageInput value =>
      if chatShown (state w) then setNewMessage value w else w
  end.

Definition run (env : Env) (w : World) (events : list event) : World :=
  foldl (step env) w events.

(** ** Vocabulary of the properties *)

Definition compareBy {A : Type} (sortKey : A -> Z) (a b : A) : Z :=
  sortKey a - sortKey b.

Definition ascendingBy {A : Type} (sortKey : A -> Z) (a b : A) : Prop :=
  sortKey a <= sortKey b.




(** The content of the message input field when the view shows one. *)
Definition messageInputShown (v : Screen) : option jsstring :=
  match v with
  | ChatScreen _ _ _ _ messageInput => Some messageInput
  | _ => None
  end.


(** The configuration global is undefined, or parses to a value without
    keys (such as [{}]). *)
Definition configMissing (env : Env) : Prop :=
  firebase_config env = None \/
  exists v, firebase_config env = Some (JSON_value v)
            /\ Object_keys_length v = Some 0%nat.

(** The configuration parses to a value with at least one key. *)
Definition configProvided (env : Env) : Prop :=
  exists v n, firebase_config env = Some (JSON_value v)
              /\ Object_keys_length v = Some (S n).

Definition initializationError : jsstring :=
  str "Failed to initialize Firebase: Firebase config not provided.".

(** The component state once initialization failed for want of a
    configuration. *)
Definition failedState : AppState :=
  {| messages := []; newMessage := []; userId := None; userName := None;
     db := None; auth := None; loading := false;
     error := Some initializationError |}.

Definition isNameInput (e : event) : bool :=
  match e with
  | NameInput _ => true
  | _ => false
  end.

(** ** Sample runs *)

Definition sampleEnv : Env :=
  {| app_id := None;
     firebase_config :=
       Some (JSON_value (JObject [(str "projectId", JString (str "bull"))]));
     initial_auth_token := None |}.

Definition emptyConfigEnv : Env :=
  {| app_id := None;
     firebase_config := Some (JSON_value (JObject []));
     initial_auth_token := None |}.

Definition sampleRandom : jsstring := str "0.4fzyo82mvyr".

(** A session that signed in as [u1] and typed [hi]. *)
Definition readyWorld : World :=
  run sampleEnv (pageLoad ∅)
    [Mount sampleRandom SdkReady;
     AuthStateChanged None None;
     AuthStateChanged (Some (str "u1")) None;
     MessageInput (str "hi")].

Definition pendingDoc : Doc :=
  {| doc_id := str "p"; doc_senderId := Some (str "u1");
     doc_senderName := Some (str "Ann"); doc_text := Some (str "hi");
     doc_timestamp := None |}.

Definition datedDoc (name : String.string) (millis : Z) : Doc :=
  {| doc_id := str name; doc_senderId := Some (str "u2");
     doc_senderName := Some (str "Bob"); doc_text := Some (str "yo");
     doc_timestamp := Some {| toMillis := millis |} |}.

Definition namelessDoc : Doc :=
  {| doc_id := str "n"; doc_senderId := Some (str "u2");
     doc_senderName := Some []; doc_text := Some (str "yo");
     doc_timestamp := Some {| toMillis := 50 |} |}.

(** ** Vocabulary of the further properties *)

(** The text is empty or consists of white space only. *)
Definition isBlank (s : jsstring) : bool := forallb isWhiteSpace s.

(** The message of the error that the [try] block of
    [initializeFirebase] throws; [None] when the block runs to its end. *)
Definition bootFailure (env : Env) (sdk : sdk_outcome) : option jsstring :=
  match firebase_config env with
  | None => Some (str "Firebase config not provided.")
  | Some (JSON_throws message) => Some message
  | Some (JSON_value config) =>
      match Object_keys_length config with
      | None => Some (str "Cannot convert undefined or null to object")
      | Some O => Some (str "Firebase config not provided.")
      | Some (S _) =>
          match sdk with
          | SdkThrows message => Some message
          | SdkReady => None
          end
      end
  end.

(** The sign-in call the auth listener makes in this environment. *)
Definition expectedSignIn (env : Env) : signIn_call :=
  match initial_auth_token env with
  | Some token => signInWithCustomToken token
  | None => signInAnonymously
  end.

(** What every write of the component looks like. *)
Definition wellFormedWrite (env : Env) (d : Write) : Prop :=
  wr_path d = messagesPath env
  /\ wr_senderId d <> []
  /\ wr_senderName d <> []
  /\ isBlank (wr_text d) = false
  /\ wr_timestamp d = serverTimestamp.

(** Backend handle, auth handle, session identity and display name are
    all set. *)
Definition identified (s : AppState) : Prop :=
  is_Some (db s) /\ is_Some (auth s)
  /\ is_Some (userId s) /\ is_Some (userName s).

Definition isAuthOrMount (e : event) : bool :=
  match e with
  | Mount _ _ | AuthStateChanged _ _ => true
  | _ => false
  end.

Definition isSubmit (e : event) : bool :=
  match e with
  | Submit _ => true
  | _ => false
  end.

Definition isMount (e : event) : bool :=
  match e with
  | Mount _ _ => true
  | _ => false
  end.

(** The auth listener is called with no user. *)
Definition isSignedOut (e : event) : bool :=
  match e with
  | AuthStateChanged None _ => true
  | _ => false
  end.

(** An environment whose configuration is not valid JSON. *)
Definition brokenConfigEnv : Env :=
  {| app_id := Some (str "bull-chat");
     firebase_config := Some (JSON_throws (str "Unexpected end of JSON input"));
     initial_auth_token := Some (str "tok") |}.

(** * Properties *)

(** ** Sorting by a numeric key *)

Section ArraySortFacts.
Context {A : Type} (sortKey : A -> Z).

Local Abbreviation cmp := (compareBy sortKey).
Local Abbreviation ascending := (ascendingBy sortKey).

Lemma sort_insert_perm x l : sort_insert cmp x l ≡ₚ x :: l.
Proof.
  induction l as [|y r IH]; simpl; [done|].
  destruct (cmp x y <=? 0); [done|].
  rewrite IH. apply Permutation_swap.
Qed.

Lemma Array_sort_perm l : Array_sort cmp l ≡ₚ l.
Proof.
  induction l as [|x r IH]; simpl; [done|].
  rewrite sort_insert_perm. by f_equiv.
Qed.

Lemma sort_insert_sorted x l :
  StronglySorted ascending l -> StronglySorted ascending (sort_insert cmp x l).
Proof.
  induction 1 as [|y r Hr IH Hy]; simpl.
  - repeat constructor.
  - unfold compareBy, ascendingBy in *.
    destruct (Z.leb_spec (sortKey x - sortKey y) 0) as [Hle|Hgt].
    + constructor; [by constructor|].
      constructor; [lia|].
      eapply Forall_impl; [exact Hy|]. simpl. intros z Hz. lia.
    + constructor; [exact IH|].
      rewrite sort_insert_perm. constructor; [lia | exact Hy].
Qed.

Lemma Array_sort_sorted l : StronglySorted ascending (Array_sort cmp l).
Proof.
  induction l as [|x r IH]; simpl; [constructor|].
  by apply sort_insert_sorted.
Qed.

(** Stability: the elements that share a key keep their order. *)
Lemma sort_insert_stable k x l :
  filter (fun y => sortKey y = k) (sort_insert cmp x l)
  = filter (fun y => sortKey y = k) (x :: l).
Proof.
  induction l as [|y r IH]; simpl; [done|].
  destruct (Z.leb_spec (cmp x y) 0) as [Hle|Hgt]; [done|].
  unfold compareBy in Hgt.
  rewrite (filter_cons _ y), IH, !filter_cons.
  repeat case_decide; try done; lia.
Qed.

Lemma Array_sort_stable k l :
  filter (fun y => sortKey y = k) (Array_sort cmp l)
  = filter (fun y => sortKey y = k) l.
Proof.
  induction l as [|x r IH]; simpl; [done|].
  by rewrite sort_insert_stable, !filter_cons, IH.
Qed.


End ArraySortFacts.


(** ** The message feed *)


Lemma sortedMessages_perm docs : sortedMessages docs ≡ₚ map fetchedMessage docs.
Proof. apply (Array_sort_perm millisOr0). Qed.

Lemma sortedMessages_sorted docs :
  StronglySorted (ascendingBy millisOr0) (sortedMessages docs).
Proof. apply (Array_sort_sorted millisOr0). Qed.

(** Of the records that share a timestamp value, the snapshot's order is
    kept, so the published list does not depend on the engine's sorting
    algorithm. *)
Lemma sortedMessages_stable docs k :
  filter (fun m => millisOr0 m = k) (sortedMessages docs)
  = filter (fun m => millisOr0 m = k) (map fetchedMessage docs).
Proof. apply (Array_sort_stable millisOr0). Qed.

(** The scenario of a snapshot holding [a] dated 100 and then [b] dated
    50: published in the order [b], [a]. *)
Example snapshot_scenario :
  map msg_id (sortedMessages [datedDoc "a" 100; datedDoc "b" 50])
  = [str "b"; str "a"].
Proof. reflexivity. Qed.





(** ** Sending *)

(** C2: send is a no-op (no write is issued, the input field and every
    other piece of state stay as they were) whenever the trimmed text is
    empty or the backend handle, the session identity or the display name
    is unavailable. *)
Theorem send_noop (env : Env) (failure : option jsstring) (w : World) :
  trim (newMessage (state w)) = [] \/ db (state w) = None
  \/ userId (state w) = None \/ userName (state w) = None ->
  handleSendMessage env failure w = w.
Proof.
  intros H. unfold handleSendMessage.
  assert (sendBlocked (state w) = true) as ->; [|done].
  unfold sendBlocked.
  destruct H as [H|[H|[H|H]]]; rewrite H; simpl;
    rewrite ?orb_true_r; try done.
Qed.

Lemma send_noop_witness :
  trim (newMessage (state (setNewMessage (str "  ") readyWorld))) = []
  /\ handleSendMessage sampleEnv None (setNewMessage (str "  ") readyWorld)
     = setNewMessage (str "  ") readyWorld.
Proof.
  split; [reflexivity|]. apply send_noop. left. reflexivity.
Defined.

(** C3, as stated, fails: with the backend handle, the session identity
    and the display name all present, a display name that is the empty
    string still blocks the send.  After the user clears the name field,
    submitting [hi] issues no write and leaves the input as it was. *)
Lemma send_blocked_by_empty_name :
  let w := handleUserNameChange [] readyWorld in
  trim (newMessage (state w)) = str "hi"
  /\ is_Some (db (state w))
  /\ userId (state w) = Some (str "u1")
  /\ userName (state w) = Some []
  /\ addDoc_calls (handleSendMessage sampleEnv None w) = []
  /\ accepted_writes (handleSendMessage sampleEnv None w) = []
  /\ newMessage (state (handleSendMessage sampleEnv None w)) = str "hi".
Proof. simpl. repeat split. by eexists. Qed.

(** C3 (amended): for every text that is non-empty after trimming, with
    the backend handle present and the session identity and display name
    present and non-empty, a successful send appends exactly one record
    holding the sender id, the sender name, the text as typed and the
    server-timestamp sentinel, and afterwards the input field is empty. *)
Theorem send_appends_one_record (env : Env) (w : World) (uid name : jsstring) :
  trim (newMessage (state w)) <> [] ->
  is_Some (db (state w)) ->
  userId (state w) = Some uid -> uid <> [] ->
  userName (state w) = Some name -> name <> [] ->
  let w' := handleSendMessage env None w in
  let data :=
    {| wr_path := messagesPath env; wr_senderId := uid;
       wr_senderName := name; wr_text := newMessage (state w);
       wr_timestamp := serverTimestamp |} in
  addDoc_calls w' = addDoc_calls w ++ [data]
  /\ accepted_writes w' = accepted_writes w ++ [data]
  /\ newMessage (state w') = []
  /\ w' = setNewMessage [] (addDoc data true w).
Proof.
  intros Htext [d Hdb] Hid Huid Hname Hn.
  unfold handleSendMessage.
  assert (sendBlocked (state w) = false) as ->.
  { unfold sendBlocked. rewrite Hdb, Hid, Hname.
    rewrite bool_decide_eq_false_2 by done.
    destruct uid, name; done. }
  rewrite Hid, Hname. done.
Qed.

Lemma send_appends_one_record_witness :
  addDoc_calls (handleSendMessage sampleEnv None readyWorld)
  = [ {| wr_path := str "artifacts/default-app-id/public/data/messages";
         wr_senderId := str "u1"; wr_senderName := str "User-82mvyr";
         wr_text := str "hi"; wr_timestamp := serverTimestamp |} ]
  /\ newMessage (state (handleSendMessage sampleEnv None readyWorld)) = [].
Proof.
  destruct (send_appends_one_record sampleEnv readyWorld
              (str "u1") (str "User-82mvyr")) as (H1 & _ & H3 & _);
    [done | by eexists | done | done | done | done |].
  split; [exact H1 | exact H3].
Defined.

(** ** Screens *)

Lemma chatShown_spec s :
  chatShown s = true <-> loading s = false /\ truthy (error s) = false.
Proof.
  unfold chatShown, render.
  destruct (loading s), (error s) as [[|c m]|]; simpl; split; try done;
    by intros [? ?].
Qed.

Lemma render_error s c m :
  loading s = false -> error s = Some (c :: m) -> render s = ErrorScreen (c :: m).
Proof. unfold render. by intros -> ->. Qed.

Lemma run_cons env w e events :
  run env w (e :: events) = run env (step env w e) events.
Proof. done. Qed.

(** No callback ever sets [loading] back to [true]. *)
Lemma step_loading env w e :
  loading (state w) = false -> loading (state (step env w e)) = false.
Proof.
  intros Hl. destruct e; simpl.
  - unfold initializeFirebase.
    repeat case_match; try done; unfold loadUserName; by case_match.
  - case_match; [|done]. unfold authStateChanged. by repeat case_match.
  - by case_match.
  - by case_match.
  - case_match; [|done]. unfold handleSendMessage. by repeat case_match.
  - by case_match.
  - by case_match.
Qed.

Lemma run_loading env events : forall w,
  loading (state w) = false -> loading (state (run env w events)) = false.
Proof.
  induction events as [|e events IH]; intros w Hl; [done|].
  rewrite run_cons. by apply IH, step_loading.
Qed.

(** C4, as stated, fails: feed and send errors are stored in the same
    [error] cell as the fatal ones, and a non-empty [error] replaces the
    chat by the error screen.  From a session showing the chat, a feed
    error, and likewise a failed send, brings up the error screen. *)
Lemma ready_reverts_to_error_screen :
  chatShown (state readyWorld) = true
  /\ render (state (step sampleEnv readyWorld (SnapshotError (str "denied"))))
     = ErrorScreen (str "Failed to fetch messages: denied")
  /\ render (state (step sampleEnv readyWorld (Submit (Some (str "offline")))))
     = ErrorScreen (str "Failed to send message: offline").
Proof. repeat split. Qed.

(** C4 (amended): once the chat is shown the loading screen never comes
    back; a later feed error or send error is logged and keeps the
    message list in the state unchanged, but it switches the view to the
    error screen, which carries the error's message. *)
Theorem ready_never_loading_errors_take_over (env : Env) (w : World) :
  chatShown (state w) = true ->
  (forall events, loading (state (run env w events)) = false)
  /\ (forall message,
        subscribed w = true ->
        let w' := step env w (SnapshotError message) in
        render (state w') = ErrorScreen (str "Failed to fetch messages: " ++ message)
        /\ messages (state w') = messages (state w)
        /\ console_error w' = console_error w ++ [str "Error fetching messages:"])
  /\ (forall message,
        sendBlocked (state w) = false ->
        let w' := step env w (Submit (Some message)) in
        render (state w') = ErrorScreen (str "Failed to send message: " ++ message)
        /\ messages (state w') = messages (state w)
        /\ console_error w' = console_error w ++ [str "Error sending message:"]).
Proof.
  intros Hchat. pose proof Hchat as [Hl _]%chatShown_spec.
  split; [|split].
  - intros events. by apply run_loading.
  - intros message Hsub. simpl. rewrite Hsub. repeat split.
    by apply render_error.
  - intros message Hsend. simpl. rewrite Hchat.
    unfold handleSendMessage. rewrite Hsend. repeat split.
    by apply render_error.
Qed.

Lemma ready_never_loading_errors_take_over_witness :
  chatShown (state readyWorld) = true
  /\ subscribed readyWorld = true
  /\ sendBlocked (state readyWorld) = false
  /\ loading (state (run sampleEnv readyWorld
                       [SnapshotError (str "denied"); MessageInput (str "x")]))
     = false
  /\ messages (state (step sampleEnv readyWorld (SnapshotError (str "denied"))))
     = messages (state readyWorld)
  /\ messages (state (step sampleEnv readyWorld (Submit (Some (str "offline")))))
     = messages (state readyWorld).
Proof.
  destruct (ready_never_loading_errors_take_over sampleEnv readyWorld)
    as (Hload & Hfeed & Hsend); [reflexivity|].
  do 3 (split; [reflexivity|]).
  split; [apply Hload|].
  split; [by apply Hfeed | by apply Hsend].
Defined.

(** What a failed send does to the state: the error is logged and
    stored, the write is issued once, nothing joins the collection, the
    [newMessage] cell is not touched, and the view becomes the error
    screen. *)
Lemma failed_send_publishes_error (env : Env) (w : World) (message : jsstring) :
  sendBlocked (state w) = false ->
  loading (state w) = false ->
  let w' := handleSendMessage env (Some message) w in
  error (state w') = Some (str "Failed to send message: " ++ message)
  /\ console_error w' = console_error w ++ [str "Error sending message:"]
  /\ newMessage (state w') = newMessage (state w)
  /\ accepted_writes w' = accepted_writes w
  /\ length (addDoc_calls w') = S (length (addDoc_calls w))
  /\ render (state w') = ErrorScreen (str "Failed to send message: " ++ message).
Proof.
  intros Hsend Hl. unfold handleSendMessage. rewrite Hsend. simpl.
  repeat split.
  - rewrite length_app. simpl. lia.
  - by apply render_error.
Qed.

(** ** Bootstrap *)

Lemma initializeFirebase_missing env rnd sdk w :
  configMissing env ->
  initializeFirebase env rnd sdk w
  = initializationFailed (str "Firebase config not provided.") w.
Proof.
  unfold initializeFirebase. intros [->|(v & -> & Hk)]; [done|].
  by rewrite Hk.
Qed.

Lemma initializeFirebase_provided env rnd w :
  configProvided env ->
  exists v,
    initializeFirebase env rnd SdkReady w
    = loadUserName rnd (setAuth (getAuth v) (setDb (getFirestore v) w)).
Proof.
  intros (v & n & Hc & Hk). exists v.
  unfold initializeFirebase. by rewrite Hc, Hk.
Qed.

(** After the failed initialization nothing can change the component
    state: no listener was registered, no subscription opens without a
    backend handle, and the form is not on screen. *)
Lemma failedState_step env w e :
  configMissing env -> state w = failedState -> state (step env w e) = failedState.
Proof.
  intros Hc Hs. destruct e; simpl.
  - rewrite initializeFirebase_missing by done. simpl. by rewrite Hs.
  - by rewrite Hs.
  - unfold subscribed. by rewrite Hs.
  - unfold subscribed. by rewrite Hs.
  - by rewrite Hs.
  - by rewrite Hs.
  - by rewrite Hs.
Qed.

Lemma failedState_run env events : forall w,
  configMissing env -> state w = failedState ->
  state (run env w events) = failedState.
Proof.
  induction events as [|e events IH]; intros w Hc Hs; [done|].
  rewrite run_cons. by apply IH, failedState_step.
Qed.

(** C6: when the backend configuration is absent or empty (such as
    [{}]), bootstrap fails with the configuration error, the view goes
    from loading straight to the error screen, and no later event ever
    brings up the chat. *)
Theorem missing_config_is_fatal
    (env : Env) (storage : gmap (list N) (list N))
    (rnd : jsstring) (sdk : sdk_outcome) (events : list event) :
  configMissing env ->
  let w := step env (pageLoad storage) (Mount rnd sdk) in
  render (state (pageLoad storage)) = LoadingScreen
  /\ console_error w = [str "Firebase Initialization Error:"]
  /\ render (state w) = ErrorScreen initializationError
  /\ render (state (run env w events)) = ErrorScreen initializationError
  /\ chatShown (state (run env w events)) = false.
Proof.
  intros Hc. simpl.
  assert (state (initializeFirebase env rnd sdk (pageLoad storage)) = failedState)
    as Hs by (by rewrite initializeFirebase_missing).
  pose proof (failedState_run env events _ Hc Hs) as Hrun.
  unfold chatShown. rewrite Hrun, Hs.
  by rewrite initializeFirebase_missing.
Qed.

Lemma missing_config_is_fatal_witness :
  render (state (run emptyConfigEnv
                   (step emptyConfigEnv (pageLoad ∅) (Mount sampleRandom SdkReady))
                   [AuthStateChanged (Some (str "u1")) None;
                    Snapshot [pendingDoc]; Submit None]))
  = ErrorScreen initializationError.
Proof.
  apply (missing_config_is_fatal emptyConfigEnv ∅ sampleRandom SdkReady).
  right. exists (JObject []). split; reflexivity.
Defined.

(** ** The display name *)

Lemma loadUserName_stored rnd w c name :
  localStorage w !! chatUserName = Some (c :: name) ->
  loadUserName rnd w = setUserName (c :: name) w.
Proof. unfold loadUserName, localStorage_getItem. by intros ->. Qed.

Lemma loadUserName_default rnd w :
  truthy (localStorage w !! chatUserName) = false ->
  loadUserName rnd w = setUserName (str "User-" ++ substring 7 rnd) w.
Proof. unfold loadUserName, localStorage_getItem. by intros ->. Qed.

Lemma loadUserName_localStorage rnd w :
  localStorage (loadUserName rnd w) = localStorage w.
Proof. unfold loadUserName. by case_match. Qed.

Lemma initializeFirebase_localStorage env rnd sdk w :
  localStorage (initializeFirebase env rnd sdk w) = localStorage w.
Proof.
  unfold initializeFirebase.
  repeat case_match; try done; by rewrite loadUserName_localStorage.
Qed.

Lemma step_localStorage env w e :
  isNameInput e = false -> localStorage (step env w e) = localStorage w.
Proof.
  destruct e; simpl; intros He; try done.
  - apply initializeFirebase_localStorage.
  - case_match; [|done]. unfold authStateChanged. by repeat case_match.
  - by case_match.
  - by case_match.
  - case_match; [|done]. unfold handleSendMessage. by repeat case_match.
  - by case_match.
Qed.

Lemma run_localStorage env events : forall w,
  Forall (fun e => isNameInput e = false) events ->
  localStorage (run env w events) = localStorage w.
Proof.
  induction events as [|e events IH]; intros w He; [done|].
  apply Forall_cons in He as [He Hes].
  rewrite run_cons, IH by done. by apply step_localStorage.
Qed.

Lemma handleUserNameChange_stored name w :
  localStorage (handleUserNameChange name w) !! chatUserName = Some name.
Proof. apply lookup_insert_eq. Qed.

(** C7, as stated, fails for the empty name: it is written to storage,
    but the next bootstrap finds a falsy stored value and generates a
    default instead of returning it. *)
Lemma empty_name_does_not_round_trip :
  let w1 := handleUserNameChange [] readyWorld in
  localStorage w1 !! chatUserName = Some []
  /\ userName (state (initializeFirebase sampleEnv (str "0.7k2p9xqd1c") SdkReady
                        (pageLoad (localStorage w1))))
     = Some (str "User-xqd1c").
Proof.
  split; [apply handleUserNameChange_stored|].
  destruct (initializeFirebase_provided sampleEnv (str "0.7k2p9xqd1c")
              (pageLoad (localStorage (handleUserNameChange [] readyWorld))))
    as [v ->]; [by exists (JObject [(str "projectId", JString (str "bull"))]), 0%nat|].
  rewrite loadUserName_default; [done|].
  simpl. unfold handleUserNameChange. simpl. by rewrite lookup_insert_eq.
Qed.

(** C7 (amended): for every non-empty name the user sets, the name is
    written at once to local storage and to the in-memory value, and a
    subsequent bootstrap load returns that name rather than a generated
    default. *)
Theorem name_round_trip (env : Env) (w : World) (name rnd : jsstring) :
  name <> [] ->
  configProvided env ->
  let w1 := handleUserNameChange name w in
  localStorage w1 = <[chatUserName := name]> (localStorage w)
  /\ userName (state w1) = Some name
  /\ userName (state (initializeFirebase env rnd SdkReady (pageLoad (localStorage w1))))
     = Some name.
Proof.
  intros Hname Hc w1. subst w1. split; [done|]. split; [done|].
  destruct (initializeFirebase_provided env rnd
              (pageLoad (localStorage (handleUserNameChange name w))) Hc)
    as [v ->].
  destruct name as [|c name]; [done|].
  by erewrite loadUserName_stored by apply handleUserNameChange_stored.
Qed.

Lemma name_round_trip_witness :
  userName (state (initializeFirebase sampleEnv sampleRandom SdkReady
                     (pageLoad (localStorage (handleUserNameChange (str "Ann") readyWorld)))))
  = Some (str "Ann").
Proof.
  apply (name_round_trip sampleEnv readyWorld (str "Ann") sampleRandom);
    [done|].
  by exists (JObject [(str "projectId", JString (str "bull"))]), 0%nat.
Defined.

(** C9: when no display name is stored, the bootstrap load sets the
    name to [User-] followed by the random suffix and does not write it
    to local storage; storage stays as it was through every later event
    until the user edits the name. *)
Theorem load_default_not_persisted (env : Env) (rnd : jsstring) (w : World) :
  configProvided env ->
  localStorage w !! chatUserName = None ->
  let w' := initializeFirebase env rnd SdkReady w in
  userName (state w') = Some (str "User-" ++ substring 7 rnd)
  /\ localStorage w' = localStorage w
  /\ forall events,
       Forall (fun e => isNameInput e = false) events ->
       localStorage (run env w' events) = localStorage w.
Proof.
  intros Hc Hnone w'. subst w'.
  split; [|split].
  - destruct (initializeFirebase_provided env rnd w Hc) as [v ->].
    rewrite loadUserName_default; [done|]. simpl. by rewrite Hnone.
  - apply initializeFirebase_localStorage.
  - intros events He.
    rewrite run_localStorage by done. apply initializeFirebase_localStorage.
Qed.

Lemma load_default_not_persisted_witness :
  localStorage
    (run sampleEnv (initializeFirebase sampleEnv sampleRandom SdkReady (pageLoad ∅))
       [AuthStateChanged (Some (str "u1")) None; MessageInput (str "hi");
        Submit None])
  = localStorage (pageLoad ∅).
Proof.
  apply (load_default_not_persisted sampleEnv sampleRandom (pageLoad ∅)).
  - by exists (JObject [(str "projectId", JString (str "bull"))]), 0%nat.
  - apply lookup_empty.
  - repeat constructor.
Defined.

(** C10: when the user sets the display name to the empty string, the
    empty string is persisted; from then on send is a no-op for every
    text, whatever the backend handle and session identity are; and the
    next bootstrap load treats the stored empty string as absent and
    generates a fresh default. *)
Theorem empty_name_blocks_send_and_is_not_reloaded
    (env : Env) (w : World) (message : jsstring)
    (failure : option jsstring) (rnd : jsstring) :
  configProvided env ->
  let w1 := handleUserNameChange [] w in
  localStorage w1 !! chatUserName = Some []
  /\ handleSendMessage env failure (setNewMessage message w1)
     = setNewMessage message w1
  /\ userName (state (initializeFirebase env rnd SdkReady (pageLoad (localStorage w1))))
     = Some (str "User-" ++ substring 7 rnd).
Proof.
  intros Hc w1. subst w1.
  split; [apply handleUserNameChange_stored|]. split.
  - unfold handleSendMessage.
    assert (sendBlocked (state (setNewMessage message (handleUserNameChange [] w)))
            = true) as ->; [|done].
    unfold sendBlocked. simpl. by rewrite orb_true_r.
  - destruct (initializeFirebase_provided env rnd
                (pageLoad (localStorage (handleUserNameChange [] w))) Hc)
      as [v ->].
    rewrite loadUserName_default; [done|].
    change (localStorage (setAuth _ _)) with (localStorage (handleUserNameChange [] w)).
    by rewrite handleUserNameChange_stored.
Qed.

Lemma empty_name_blocks_send_and_is_not_reloaded_witness :
  handleSendMessage sampleEnv None
    (setNewMessage (str "hello") (handleUserNameChange [] readyWorld))
  = setNewMessage (str "hello") (handleUserNameChange [] readyWorld).
Proof.
  apply (empty_name_blocks_send_and_is_not_reloaded
           sampleEnv readyWorld (str "hello") None sampleRandom).
  by exists (JObject [(str "projectId", JString (str "bull"))]), 0%nat.
Defined.

(** ** Rendering the messages *)

(** C8, as stated, fails: a sender name that is present but empty is
    falsy, so the bubble shows the sender id, not the sender name. *)
Lemma empty_senderName_labelled_by_id :
  let w := step sampleEnv readyWorld (Snapshot [namelessDoc]) in
  map senderName (messages (state w)) = [Some []]
  /\ render (state w)
     = ChatScreen (Some (str "u1")) (str "User-82mvyr") false
         [ {| key := str "n"; justify := justify_start;
              label := Some (str "u2"); body := Some (str "yo") |} ]
         (str "hi").
Proof. split; reflexivity. Qed.

(** C8 (amended): while the chat is shown, the messages are rendered in
    list order; a message whose sender id equals the viewer's identity is
    right-aligned and labelled [You]; every other message is left-aligned
    and labelled with its sender name, or with its sender id when the
    sender name is absent or empty. *)
Theorem render_message_bubbles (s : AppState) :
  chatShown s = true ->
  (exists shownUserId nameInput emptyHint messageInput,
     render s = ChatScreen shownUserId nameInput emptyHint
                  (map (renderMessage (userId s)) (messages s)) messageInput)
  /\ forall msg,
       let bubble := renderMessage (userId s) msg in
       (forall uid, senderId msg = Some uid -> userId s = Some uid ->
          justify bubble = justify_end /\ label bubble = Some (str "You"))
       /\ (~ (exists uid, senderId msg = Some uid /\ userId s = Some uid) ->
          justify bubble = justify_start
          /\ label bubble = match senderName msg with
                            | Some (c :: name) => Some (c :: name)
                            | Some [] | None => senderId msg
                            end).
Proof.
  intros [Hl He]%chatShown_spec. split.
  - unfold render. rewrite Hl.
    destruct (error s) as [[|c m]|]; [|done|]; by do 4 eexists.
  - intros msg bubble. subst bubble. unfold renderMessage, isOwn. simpl. split.
    + intros uid -> ->. by rewrite bool_decide_eq_true_2.
    + intros Hother.
      assert (match senderId msg, userId s with
              | Some a, Some b => bool_decide (a = b)
              | _, _ => false
              end = false) as ->.
      { destruct (senderId msg) as [a|], (userId s) as [b|]; try done.
        apply bool_decide_eq_false_2. intros ->. apply Hother. eauto. }
      split; [done|]. unfold or_else.
      by destruct (senderName msg) as [[|c name]|].
Qed.

Lemma render_message_bubbles_witness :
  label (renderMessage (userId (state readyWorld)) (fetchedMessage pendingDoc))
  = Some (str "You").
Proof.
  destruct (render_message_bubbles (state readyWorld)) as [_ H]; [done|].
  destruct (H (fetchedMessage pendingDoc)) as [Hown _].
  by destruct (Hown (str "u1")) as [_ Hlabel].
Defined.

(** * Further properties *)

(** ** What counts as an empty message *)

Lemma trimStart_nil s : trimStart s = [] <-> isBlank s = true.
Proof.
  induction s as [|c r IH]; simpl; [done|].
  destruct (isWhiteSpace c); simpl; [exact IH | done].
Qed.

Lemma isBlank_rev s : isBlank (rev s) = isBlank s.
Proof.
  unfold isBlank. induction s as [|c r IH]; simpl; [done|].
  rewrite forallb_app, IH. simpl. rewrite andb_true_r. apply andb_comm.
Qed.

Lemma trimStart_blank s : isBlank s = false -> isBlank (trimStart s) = false.
Proof.
  induction s as [|c r IH]; simpl; [done|].
  destruct (isWhiteSpace c) eqn:Hc; simpl; [exact IH | by rewrite Hc].
Qed.

Lemma trim_nil s : trim s = [] <-> isBlank s = true.
Proof.
  unfold trim, trimEnd. split.
  - intros H. destruct (isBlank s) eqn:Hb; [done|].
    apply trimStart_blank in Hb.
    apply (f_equal (@rev N)) in H. rewrite rev_involutive in H. simpl in H.
    apply trimStart_nil in H. rewrite isBlank_rev in H. congruence.
  - intros H. apply trimStart_nil in H. by rewrite H.
Qed.

Lemma sendBlocked_false s :
  sendBlocked s = false <->
  isBlank (newMessage s) = false /\ is_Some (db s)
  /\ truthy (userId s) = true /\ truthy (userName s) = true.
Proof.
  unfold sendBlocked. rewrite !orb_false_iff, !negb_false_iff.
  rewrite bool_decide_eq_false, trim_nil.
  destruct (db s); simpl; rewrite ?not_true_iff_false; split.
  - intros (((? & ?) & ?) & ?). by eauto.
  - by intros (? & ? & ? & ?).
  - by intros (((? & ?) & ?) & ?).
  - by intros (? & [? ?] & ?).
Qed.

(** X1: a text that is empty or made of white space only (spaces, tabs,
    line breaks, no-break spaces and the other ECMAScript white space)
    is never sent: the handler returns with nothing changed. *)
Theorem blank_send_noop (env : Env) (failure : option jsstring) (w : World) :
  isBlank (newMessage (state w)) = true ->
  handleSendMessage env failure w = w.
Proof. intros H. apply send_noop. left. by apply trim_nil. Qed.

Lemma blank_send_noop_witness :
  handleSendMessage sampleEnv None
    (setNewMessage [32; 9; 160; 10; 8195; 65279]%N readyWorld)
  = setNewMessage [32; 9; 160; 10; 8195; 65279]%N readyWorld.
Proof. apply blank_send_noop. reflexivity. Defined.

(** X2: the handler issues a write exactly when the text holds a
    character that is not white space, the backend handle is set, and
    the session identity and the display name are non-empty strings;
    it then issues one write, whether the backend accepts it or not. *)
Theorem send_issues_write_iff (env : Env) (failure : option jsstring) (w : World) :
  let w' := handleSendMessage env failure w in
  (addDoc_calls w' <> addDoc_calls w <->
     isBlank (newMessage (state w)) = false /\ is_Some (db (state w))
     /\ truthy (userId (state w)) = true /\ truthy (userName (state w)) = true)
  /\ (addDoc_calls w' = addDoc_calls w
      \/ exists data, addDoc_calls w' = addDoc_calls w ++ [data]).
Proof.
  simpl. rewrite <- sendBlocked_false. unfold handleSendMessage.
  destruct (sendBlocked (state w)).
  - split; [split; [congruence | done] | by left].
  - split.
    + split; [done|]. intros _ H.
      apply (f_equal length) in H.
      destruct failure; simpl in H; rewrite length_app in H; simpl in H; lia.
    + right. destruct failure; by eexists.
Qed.

(** X3: submitting again right after a successful send does nothing:
    the first send emptied the input, so the second one is blocked and
    no second record is written. *)
Theorem send_twice (env : Env) (failure : option jsstring) (w : World) :
  handleSendMessage env failure (handleSendMessage env None w)
  = handleSendMessage env None w.
Proof.
  destruct (sendBlocked (state w)) eqn:Hb.
  - assert (forall f, handleSendMessage env f w = w) as Hnoop
      by (intros f; unfold handleSendMessage; by rewrite Hb).
    by rewrite !Hnoop.
  - apply blank_send_noop. unfold handleSendMessage. by rewrite Hb.
Qed.

(** ** Invariants of every run *)

Lemma run_invariant (P : World -> Prop) env :
  (forall w e, P w -> P (step env w e)) ->
  forall events w, P w -> P (run env w events).
Proof.
  intros Hstep events. induction events as [|e events IH]; intros w Hw; [done|].
  rewrite run_cons. by apply IH, Hstep.
Qed.

Lemma run_snoc env w events e :
  run env w (events ++ [e]) = step env (run env w events) e.
Proof. unfold run. by rewrite foldl_app. Qed.

(** Only a submit issues writes. *)
Lemma step_writes_other env w e :
  isSubmit e = false ->
  addDoc_calls (step env w e) = addDoc_calls w
  /\ accepted_writes (step env w e) = accepted_writes w.
Proof.
  destruct e; simpl; intros He; try done.
  - unfold initializeFirebase, loadUserName. by repeat case_match.
  - unfold authStateChanged. by repeat case_match.
  - by case_match.
  - by case_match.
  - by case_match.
  - by case_match.
Qed.

Lemma handleSendMessage_writes env failure w :
  let data :=
    {| wr_path := messagesPath env;
       wr_senderId := default [] (userId (state w));
       wr_senderName := default [] (userName (state w));
       wr_text := newMessage (state w);
       wr_timestamp := serverTimestamp |} in
  let w' := handleSendMessage env failure w in
  (sendBlocked (state w) = true /\ w' = w)
  \/ (sendBlocked (state w) = false
      /\ wellFormedWrite env data
      /\ addDoc_calls w' = addDoc_calls w ++ [data]
      /\ accepted_writes w'
         = match failure with
           | Some _ => accepted_writes w
           | None => accepted_writes w ++ [data]
           end).
Proof.
  simpl. unfold handleSendMessage.
  destruct (sendBlocked (state w)) eqn:Hb; [by left|]. right.
  split; [done|]. split; [|by destruct failure].
  apply sendBlocked_false in Hb as (Htext & _ & Hid & Hname).
  unfold wellFormedWrite. simpl.
  destruct (userId (state w)) as [[|? ?]|], (userName (state w)) as [[|? ?]|];
    done.
Qed.

(** X4: in every run of the component, each write it issues goes to the
    messages collection of its namespace and carries a non-empty sender
    id, a non-empty sender name, a text that is not blank, and the
    server-timestamp sentinel, never a time taken from the client. *)
Theorem writes_well_formed
    (env : Env) (storage : gmap (list N) (list N)) (events : list event) :
  Forall (wellFormedWrite env) (addDoc_calls (run env (pageLoad storage) events)).
Proof.
  apply (run_invariant (fun w => Forall (wellFormedWrite env) (addDoc_calls w)));
    [|by constructor].
  intros w e Hw. destruct (isSubmit e) eqn:He.
  - destruct e; try done. simpl. case_match; [|done].
    destruct (handleSendMessage_writes env failure w)
      as [[_ ->]|(_ & Hwf & -> & _)]; [done|].
    apply Forall_app. split; [done|]. by constructor.
  - by destruct (step_writes_other env w e He) as [-> _].
Qed.

(** X5: in every run, the records that reached the collection are a
    subsequence of the writes issued, and there is at most one write per
    submit of the form: nothing is retried, queued or written twice. *)
Theorem writes_at_most_one_per_submit
    (env : Env) (storage : gmap (list N) (list N)) (events : list event) :
  let w := run env (pageLoad storage) events in
  accepted_writes w `sublist_of` addDoc_calls w
  /\ (length (addDoc_calls w) <= length (filter (fun e => isSubmit e = true) events))%nat.
Proof.
  simpl. induction events as [|e events IH] using rev_ind; [by split|].
  rewrite run_snoc, filter_app, length_app.
  destruct IH as [IHsub IHlen].
  set (w := run env (pageLoad storage) events) in *.
  destruct (isSubmit e) eqn:He.
  - destruct e; try done. simpl. case_match.
    + destruct (handleSendMessage_writes env failure w)
        as [[_ ->]|(_ & _ & -> & ->)]; [split; [done|lia]|].
      rewrite length_app. simpl. split; [|lia].
      destruct failure.
      * by apply sublist_inserts_r.
      * by apply sublist_app.
    + split; [done|lia].
  - destruct (step_writes_other env w e He) as [-> ->].
    split; [done|lia].
Qed.

(** ** Screens over a run *)

(** Every value ever stored in [error] is a non-empty string. *)
Lemma step_error_truthy env w e :
  truthy (error (state w)) = true -> truthy (error (state (step env w e))) = true.
Proof.
  intros He. destruct e; simpl.
  - unfold initializeFirebase, loadUserName. by repeat case_match.
  - unfold authStateChanged. by repeat case_match.
  - by case_match.
  - by case_match.
  - unfold handleSendMessage. by repeat case_match.
  - by case_match.
  - by case_match.
Qed.

Lemma render_error_iff s :
  (exists m, render s = ErrorScreen m)
  <-> loading s = false /\ truthy (error s) = true.
Proof.
  unfold render. destruct (loading s), (error s) as [[|c m]|]; simpl; split;
    try (by intros [? ?]); eauto.
Qed.

(** X6: the error screen is final.  Once it is shown, no event brings
    the chat or the loading screen back; later errors can only replace
    its message. *)
Theorem error_screen_is_final (env : Env) (w : World) (events : list event) :
  (exists m, render (state w) = ErrorScreen m) ->
  exists m, render (state (run env w events)) = ErrorScreen m.
Proof.
  rewrite !render_error_iff. revert w.
  apply (run_invariant
           (fun w => loading (state w) = false /\ truthy (error (state w)) = true)).
  intros w e [Hl He]. split; [by apply step_loading | by apply step_error_truthy].
Qed.

Lemma error_screen_is_final_witness :
  exists m,
    render (state (run sampleEnv
                     (step sampleEnv readyWorld (SnapshotError (str "denied")))
                     [Snapshot [pendingDoc]; AuthStateChanged (Some (str "u1")) None;
                      MessageInput (str "again"); Submit None]))
    = ErrorScreen m.
Proof.
  apply error_screen_is_final.
  exists (str "Failed to fetch messages: denied"). reflexivity.
Defined.

(** C5: when a send fails, the error is logged and published, nothing
    joins the collection and the write is not repeated, and the text is
    lost to the user: the input field, which held the text when the form
    was submitted, is gone from the view and no later event brings it
    back, with or without the text. *)
Theorem failed_send_loses_text
    (env : Env) (w : World) (message : jsstring) (events : list event) :
  chatShown (state w) = true ->
  sendBlocked (state w) = false ->
  let w' := step env w (Submit (Some message)) in
  messageInputShown (render (state w)) = Some (newMessage (state w))
  /\ error (state w') = Some (str "Failed to send message: " ++ message)
  /\ console_error w' = console_error w ++ [str "Error sending message:"]
  /\ accepted_writes w' = accepted_writes w
  /\ length (addDoc_calls w') = S (length (addDoc_calls w))
  /\ messageInputShown (render (state w')) = None
  /\ messageInputShown (render (state (run env w' events))) = None
  /\ length (addDoc_calls (run env w' events)) = S (length (addDoc_calls w)).
Proof.
  intros Hchat Hsend. simpl. rewrite Hchat.
  pose proof Hchat as [Hl Herr]%chatShown_spec.
  destruct (failed_send_publishes_error env w message Hsend Hl)
    as (He & Hc & _ & Ha & Hn & Hr).
  split.
  { unfold render. rewrite Hl.
    by destruct (error (state w)) as [[|c m]|]. }
  split; [exact He|]. split; [exact Hc|]. split; [exact Ha|].
  split; [exact Hn|]. split; [by rewrite Hr|].
  set (w' := handleSendMessage env (Some message) w) in *.
  assert (loading (state (run env w' events)) = false
          /\ truthy (error (state (run env w' events))) = true
          /\ addDoc_calls (run env w' events) = addDoc_calls w') as (Hl' & He' & ->).
  { apply (run_invariant
             (fun v => loading (state v) = false
                       /\ truthy (error (state v)) = true
                       /\ addDoc_calls v = addDoc_calls w')).
    - intros v e (Hvl & Hve & Hvc).
      split; [by apply step_loading|]. split; [by apply step_error_truthy|].
      rewrite <- Hvc. destruct (isSubmit e) eqn:Hsub.
      + destruct e; try done. simpl.
        assert (chatShown (state v) = false) as ->; [|done].
        apply not_true_is_false. intros [_ ?]%chatShown_spec. congruence.
      + by destruct (step_writes_other env v e Hsub).
    - split; [|split; [|done]].
      + apply render_error_iff. eauto.
      + by rewrite He. }
  split; [|exact Hn].
  destruct (proj2 (render_error_iff (state (run env w' events)))) as [m ->];
    done.
Qed.

Lemma failed_send_loses_text_witness :
  messageInputShown (render (state readyWorld)) = Some (str "hi")
  /\ messageInputShown
       (render (state (run sampleEnv
                         (step sampleEnv readyWorld (Submit (Some (str "offline"))))
                         [MessageInput (str "hi"); Submit None;
                          Snapshot [pendingDoc]])))
     = None.
Proof.
  destruct (failed_send_loses_text sampleEnv readyWorld (str "offline")
              [MessageInput (str "hi"); Submit None; Snapshot [pendingDoc]])
    as (Hbefore & _ & _ & _ & _ & _ & Hafter & _); [reflexivity | reflexivity |].
  split; [exact Hbefore | exact Hafter].
Defined.

Lemma step_identified env w e :
  let ok (w : World) :=
    (is_Some (auth (state w)) ->
       is_Some (db (state w)) /\ is_Some (userName (state w)))
    /\ (loading (state w) = false ->
          truthy (error (state w)) = true
          \/ (is_Some (userId (state w)) /\ is_Some (auth (state w)))) in
  ok w -> ok (step env w e).
Proof.
  simpl. intros [Ha Hl]. destruct e; simpl.
  - unfold initializeFirebase, loadUserName.
    repeat case_match; simpl; split; eauto; try (by intros _; left).
    all: intros Hload; destruct (Hl Hload) as [|[? ?]]; eauto.
  - destruct (auth (state w)) eqn:Hau; [|rewrite Hau; by split].
    unfold authStateChanged. repeat case_match; simpl; rewrite ?Hau; split;
      eauto; try (by intros _; left); by intros _; right.
  - by case_match.
  - case_match; [|done]. simpl. split; [done|]. by intros _; left.
  - case_match; [|done]. unfold handleSendMessage.
    repeat case_match; simpl; split; eauto.
  - case_match; [|done]. simpl. split; [|done].
    intros Hau. destruct (Ha Hau). eauto.
  - by case_match.
Qed.

(** X7: in every run from a page load, whenever the chat is on screen
    the backend handle, the auth handle, the session identity and the
    display name have all been set: the chat is never shown to a user
    without an identity. *)
Theorem chat_shown_identified
    (env : Env) (storage : gmap (list N) (list N)) (events : list event) :
  chatShown (state (run env (pageLoad storage) events)) = true ->
  identified (state (run env (pageLoad storage) events)).
Proof.
  intros [Hl He]%chatShown_spec.
  pose proof (run_invariant _ env (fun w e => step_identified env w e) events
                (pageLoad storage)) as [Ha Hi].
  { split; [by intros [? ?]|done]. }
  destruct (Hi Hl) as [Herr|[Hid Hau]]; [congruence|].
  destruct (Ha Hau). by repeat split.
Qed.

Lemma chat_shown_identified_witness : identified (state readyWorld).
Proof.
  apply (chat_shown_identified sampleEnv ∅
           [Mount sampleRandom SdkReady;
            AuthStateChanged None None;
            AuthStateChanged (Some (str "u1")) None;
            MessageInput (str "hi")]).
  reflexivity.
Defined.

(** X8: the loading screen ends only through the bootstrap or the auth
    listener: no feed event and no form event can end it. *)
Theorem loading_ends_by_auth_only (env : Env) (w : World) (e : event) :
  loading (state w) = true ->
  isAuthOrMount e = false ->
  render (state (step env w e)) = LoadingScreen.
Proof.
  intros Hl He. unfold render.
  assert (loading (state (step env w e)) = true) as ->; [|done].
  assert (chatShown (state w) = false) as Hc.
  { unfold chatShown, render. by rewrite Hl. }
  destruct e; try done; simpl; rewrite ?Hc; try done; by case_match.
Qed.

Lemma loading_ends_by_auth_only_witness :
  render (state (step sampleEnv
                   (step sampleEnv (pageLoad ∅) (Mount sampleRandom SdkReady))
                   (Snapshot [pendingDoc])))
  = LoadingScreen.
Proof. apply loading_ends_by_auth_only; reflexivity. Defined.

(** ** Bootstrap outcomes *)

Lemma initializeFirebase_failure env rnd sdk w m :
  bootFailure env sdk = Some m ->
  initializeFirebase env rnd sdk w = initializationFailed m w.
Proof.
  unfold bootFailure, initializeFirebase.
  repeat case_match; intros; by simplify_eq.
Qed.

Lemma bootFailure_None env sdk :
  bootFailure env sdk = None <-> configProvided env /\ sdk = SdkReady.
Proof.
  unfold bootFailure, configProvided. split.
  - repeat case_match; intros; simplify_eq. split; [|done]. by do 2 eexists.
  - intros [(v & n & -> & ->) ->]. done.
Qed.

(** Without handles and with the form off screen, an event other than
    the mount finds nothing to run. *)
Lemma inert_step env w e :
  auth (state w) = None -> db (state w) = None -> chatShown (state w) = false ->
  isMount e = false -> step env w e = w.
Proof.
  intros Ha Hd Hc He. destruct e; try done; simpl;
    unfold subscribed; by rewrite ?Ha, ?Hd, ?Hc.
Qed.

(** X9: whatever makes the bootstrap throw (no configuration, a
    configuration that is not valid JSON, [null], a value without keys,
    or an SDK call that throws), the error screen shows the thrown
    message after the prefix [Failed to initialize Firebase: ]; no display
    name is loaded, no sign-in is attempted, nothing is written, and no
    later event changes anything. *)
Theorem bootstrap_failure_is_final
    (env : Env) (sdk : sdk_outcome) (rnd : jsstring)
    (storage : gmap (list N) (list N)) (events : list event) (m : jsstring) :
  bootFailure env sdk = Some m ->
  Forall (fun e => isMount e = false) events ->
  let w := step env (pageLoad storage) (Mount rnd sdk) in
  render (state w) = ErrorScreen (str "Failed to initialize Firebase: " ++ m)
  /\ userName (state w) = None
  /\ signIn_calls w = [] /\ addDoc_calls w = [] /\ localStorage w = storage
  /\ run env w events = w.
Proof.
  intros Hf Hev. simpl. rewrite (initializeFirebase_failure _ _ _ _ _ Hf).
  repeat split.
  induction Hev as [|e events He _ IH]; [done|].
  rewrite run_cons, inert_step; done.
Qed.

Lemma bootstrap_failure_is_final_witness :
  render (state (step brokenConfigEnv (pageLoad ∅) (Mount sampleRandom SdkReady)))
  = ErrorScreen (str "Failed to initialize Firebase: Unexpected end of JSON input")
  /\ run brokenConfigEnv
       (step brokenConfigEnv (pageLoad ∅) (Mount sampleRandom SdkReady))
       [AuthStateChanged (Some (str "u1")) None; Snapshot [pendingDoc]; Submit None]
     = step brokenConfigEnv (pageLoad ∅) (Mount sampleRandom SdkReady).
Proof.
  destruct (bootstrap_failure_is_final brokenConfigEnv SdkReady sampleRandom ∅
              [AuthStateChanged (Some (str "u1")) None; Snapshot [pendingDoc];
               Submit None]
              (str "Unexpected end of JSON input"))
    as (Hr & _ & _ & _ & _ & Hrun); [reflexivity | by repeat constructor |].
  split; [exact Hr | exact Hrun].
Defined.

(** X10: when the configuration has at least one key and the SDK calls
    return, the bootstrap leaves the loading screen up, sets the backend
    and auth handles, and sets a display name that is never empty (the
    stored one, or [User-] and a suffix); it signs nobody in by itself and
    reports no error. *)
Theorem bootstrap_success
    (env : Env) (rnd : jsstring) (storage : gmap (list N) (list N)) :
  configProvided env ->
  let w := step env (pageLoad storage) (Mount rnd SdkReady) in
  render (state w) = LoadingScreen
  /\ is_Some (db (state w)) /\ is_Some (auth (state w))
  /\ truthy (userName (state w)) = true
  /\ userId (state w) = None /\ error (state w) = None
  /\ signIn_calls w = [] /\ console_error w = [].
Proof.
  intros Hc. simpl.
  destruct (initializeFirebase_provided env rnd (pageLoad storage) Hc) as [v ->].
  unfold loadUserName, localStorage_getItem. simpl.
  destruct (storage !! chatUserName) as [[|c name]|]; simpl; by repeat split.
Qed.

Lemma bootstrap_success_witness :
  truthy (userName (state (step sampleEnv (pageLoad ∅) (Mount [] SdkReady)))) = true.
Proof.
  apply (bootstrap_success sampleEnv [] ∅).
  by exists (JObject [(str "projectId", JString (str "bull"))]), 0%nat.
Defined.

(** ** The auth listener *)

(** X11: when the auth listener reports no user and the sign-in it then
    attempts is rejected, the error screen shows [Authentication failed: ]
    and the error's message, also if the chat was on screen before; the
    session identity and the messages are left as they were. *)
Theorem auth_failure_shows_error (env : Env) (w : World) (m : jsstring) :
  is_Some (auth (state w)) ->
  let w' := step env w (AuthStateChanged None (Some m)) in
  render (state w') = ErrorScreen (str "Authentication failed: " ++ m)
  /\ signIn_calls w' = signIn_calls w ++ [expectedSignIn env]
  /\ console_error w' = console_error w ++ [str "Firebase Auth Error:"]
  /\ userId (state w') = userId (state w)
  /\ messages (state w') = messages (state w).
Proof.
  intros [a Ha]. simpl. rewrite Ha.
  unfold authStateChanged, expectedSignIn.
  by destruct (initial_auth_token env).
Qed.

Lemma auth_failure_shows_error_witness :
  render (state (step sampleEnv readyWorld
                   (AuthStateChanged None (Some (str "network-request-failed")))))
  = ErrorScreen (str "Authentication failed: network-request-failed").
Proof.
  apply (auth_failure_shows_error sampleEnv readyWorld
           (str "network-request-failed")).
  by eexists.
Defined.

Lemma step_signIn_calls env w e :
  signIn_calls (step env w e) = signIn_calls w
  \/ (signIn_calls (step env w e) = signIn_calls w ++ [expectedSignIn env]
      /\ isSignedOut e = true).
Proof.
  destruct e; simpl.
  - left. unfold initializeFirebase, loadUserName. by repeat case_match.
  - unfold authStateChanged, expectedSignIn.
    repeat case_match; simpl; eauto.
  - left. by case_match.
  - left. by case_match.
  - left. unfold handleSendMessage. by repeat case_match.
  - left. by case_match.
  - left. by case_match.
Qed.

(** X12: in every run, a sign-in is attempted only when the auth
    listener reports that no user is signed in, and every attempt redeems
    the pre-issued token when the environment provides one and is
    anonymous otherwise. *)
Theorem signIn_calls_follow_token
    (env : Env) (storage : gmap (list N) (list N)) (events : list event) :
  let w := run env (pageLoad storage) events in
  Forall (fun c => c = expectedSignIn env) (signIn_calls w)
  /\ (length (signIn_calls w)
      <= length (filter (fun e => isSignedOut e = true) events))%nat.
Proof.
  simpl. induction events as [|e events [IHall IHlen]] using rev_ind;
    [by split; [constructor|]|].
  rewrite run_snoc, filter_app, length_app.
  destruct (step_signIn_calls env (run env (pageLoad storage) events) e)
    as [->|[-> He]].
  - split; [done|lia].
  - split; [apply Forall_app; split; [done|by constructor]|].
    rewrite length_app, filter_cons_True by done. simpl. lia.
Qed.

(** ** The message list over a run *)

Lemma step_messages env w e :
  messages (state (step env w e)) = messages (state w)
  \/ exists docs, messages (state (step env w e)) = sortedMessages docs.
Proof.
  destruct e; simpl.
  - left. unfold initializeFirebase, loadUserName. by repeat case_match.
  - left. unfold authStateChanged. by repeat case_match.
  - case_match; [right; by eexists | by left].
  - left. by case_match.
  - left. unfold handleSendMessage. by repeat case_match.
  - left. by case_match.
  - left. by case_match.
Qed.

(** X13: in every run from a page load, the message list in the state
    is in ascending timestamp order (a missing timestamp counting as 0),
    and whenever the chat is on screen it shows one bubble per message in
    that order, with the empty-state hint exactly when there is none. *)
Theorem messages_always_sorted
    (env : Env) (storage : gmap (list N) (list N)) (events : list event) :
  let s := state (run env (pageLoad storage) events) in
  StronglySorted (ascendingBy millisOr0) (messages s)
  /\ forall shownUserId nameInput emptyHint bubbles messageInput,
       render s = ChatScreen shownUserId nameInput emptyHint bubbles messageInput ->
       map key bubbles = map msg_id (messages s)
       /\ (emptyHint = true <-> bubbles = []).
Proof.
  simpl. split.
  - apply (run_invariant
             (fun w => StronglySorted (ascendingBy millisOr0) (messages (state w))));
      [|constructor].
    intros w e Hw. destruct (step_messages env w e) as [->|[docs ->]];
      [done | apply sortedMessages_sorted].
  - intros uid name hint bubbles input. unfold render.
    destruct (loading _); [done|].
    destruct (error _) as [[|c m]|]; try done; intros [= _ _ <- <- _];
      (split; [by rewrite map_map|]);
      rewrite bool_decide_eq_true;
      by destruct (messages _).
Qed.

Lemma messages_always_sorted_witness :
  map key
    (map (renderMessage (Some (str "u1")))
       (sortedMessages [datedDoc "a" 100; datedDoc "b" 50]))
  = map msg_id
      (messages (state (run sampleEnv (pageLoad ∅)
                          [Mount sampleRandom SdkReady;
                           AuthStateChanged (Some (str "u1")) None;
                           Snapshot [datedDoc "a" 100; datedDoc "b" 50]]))).
Proof.
  destruct (messages_always_sorted sampleEnv ∅
              [Mount sampleRandom SdkReady;
               AuthStateChanged (Some (str "u1")) None;
               Snapshot [datedDoc "a" 100; datedDoc "b" 50]]) as [_ H].
  exact (proj1 (H _ _ _ _ _ eq_refl)).
Defined.

Lemma sort_insert_head {A : Type} (sortKey : A -> Z) x l :
  Forall (ascendingBy sortKey x) l ->
  sort_insert (compareBy sortKey) x l = x :: l.
Proof.
  destruct 1 as [|y r Hy _]; simpl; [done|].
  unfold compareBy, ascendingBy in *.
  destruct (Z.leb_spec (sortKey x - sortKey y) 0); [done|lia].
Qed.

(** X14: a snapshot whose documents already come in ascending timestamp
    order (as a server-side [orderBy] would deliver them) is published
    unchanged by the in-memory sort. *)
Theorem ordered_snapshot_unchanged (docs : list Doc) :
  StronglySorted (ascendingBy millisOr0) (map fetchedMessage docs) ->
  sortedMessages docs = map fetchedMessage docs.
Proof.
  unfold sortedMessages. generalize (map fetchedMessage docs). intros l.
  induction 1 as [|x r Hr IH Hx]; simpl; [done|].
  fold (Array_sort compareFn r). rewrite IH.
  by apply (sort_insert_head millisOr0).
Qed.

Lemma ordered_snapshot_unchanged_witness :
  sortedMessages [pendingDoc; datedDoc "a" 50; datedDoc "b" 100]
  = map fetchedMessage [pendingDoc; datedDoc "a" 50; datedDoc "b" 100].
Proof.
  apply ordered_snapshot_unchanged.
  repeat first [ apply SSorted_nil | apply SSorted_cons
               | apply Forall_nil_2 | apply Forall_cons_2 ];
    unfold ascendingBy, millisOr0; simpl; lia.
Defined.

Lemma NoDup_key_inj {A : Type} (f : A -> Z) (l : list A) x y :
  NoDup (map f l) -> x ∈ l -> y ∈ l -> f x = f y -> x = y.
Proof.
  induction l as [|a l IH]; simpl; [by intros _ ?%elem_of_nil|].
  intros [Ha Hl]%NoDup_cons [->|Hx]%elem_of_cons [->|Hy]%elem_of_cons Hf;
    try done.
  - destruct Ha. rewrite Hf. by apply (list_elem_of_fmap_2 f).
  - destruct Ha. rewrite <- Hf. by apply (list_elem_of_fmap_2 f).
  - by apply IH.
Qed.

(** X15: when the timestamps of a snapshot are pairwise distinct (a
    missing one counting as 0), the published list does not depend on the
    order in which the backend delivers the documents. *)
Theorem snapshot_order_irrelevant (docs1 docs2 : list Doc) :
  docs1 ≡ₚ docs2 ->
  NoDup (map (fun d => millisOr0 (fetchedMessage d)) docs1) ->
  sortedMessages docs1 = sortedMessages docs2.
Proof.
  intros Hperm Hnodup.
  apply (StronglySorted_unique_strong (ascendingBy millisOr0));
    try apply sortedMessages_sorted.
  - intros x y Hx Hy Hxy Hyx.
    apply (NoDup_key_inj millisOr0 (map fetchedMessage docs1)).
    + by rewrite map_map.
    + by rewrite <- (sortedMessages_perm docs1).
    + by rewrite sortedMessages_perm, <- Hperm in Hy.
    + unfold ascendingBy in *. lia.
  - by rewrite !sortedMessages_perm, Hperm.
Qed.

Lemma snapshot_order_irrelevant_witness :
  sortedMessages [datedDoc "a" 100; pendingDoc; datedDoc "b" 50]
  = sortedMessages [pendingDoc; datedDoc "b" 50; datedDoc "a" 100].
Proof.
  apply snapshot_order_irrelevant.
  - change ([datedDoc "a" 100] ++ [pendingDoc; datedDoc "b" 50]
            ≡ₚ [pendingDoc; datedDoc "b" 50] ++ [datedDoc "a" 100]).
    apply Permutation_app_comm.
  - apply (bool_decide_unpack _). reflexivity.
Defined.

(** ** Storage and paths *)

(** X16: in every run, the component changes no key of local storage
    other than [chatUserName]. *)
Theorem localStorage_other_keys
    (env : Env) (w : World) (events : list event) (k : jsstring) :
  k <> chatUserName ->
  localStorage (run env w events) !! k = localStorage w !! k.
Proof.
  intros Hk. revert w.
  induction events as [|e events IH]; intros w; [done|].
  rewrite run_cons, IH.
  destruct (isNameInput e) eqn:He; [|by rewrite step_localStorage].
  destruct e; try done. simpl. case_match; [|done].
  by apply lookup_insert_ne.
Qed.

Lemma localStorage_other_keys_witness :
  localStorage
    (run sampleEnv (pageLoad {[ str "theme" := str "dark" ]})
       [Mount sampleRandom SdkReady; AuthStateChanged (Some (str "u1")) None;
        NameInput (str "Ann"); NameInput []])
  !! str "theme"
  = Some (str "dark").
Proof.
  rewrite localStorage_other_keys; [apply lookup_singleton_eq | done].
Defined.

(** X17: an undefined or empty application id selects the namespace
    [default-app-id]; two non-empty application ids select the same
    messages collection only if they are equal. *)
Theorem messagesPath_namespace (env1 env2 : Env) :
  (truthy (app_id env1) = false ->
     messagesPath env1 = str "artifacts/default-app-id/public/data/messages")
  /\ (truthy (app_id env1) = true -> truthy (app_id env2) = true ->
      messagesPath env1 = messagesPath env2 -> app_id env1 = app_id env2).
Proof.
  unfold messagesPath, or_else. split.
  - by intros ->.
  - destruct (app_id env1) as [[|c a]|], (app_id env2) as [[|d b]|]; try done.
    intros _ _ H. apply app_inv_head, app_inv_tail in H.
    simpl in H. by rewrite H.
Qed.

Lemma messagesPath_namespace_witness :
  messagesPath sampleEnv = str "artifacts/default-app-id/public/data/messages"
  /\ messagesPath brokenConfigEnv
     = str "artifacts/bull-chat/public/data/messages".
Proof.
  split.
  - by apply (messagesPath_namespace sampleEnv sampleEnv).
  - destruct (messagesPath_namespace brokenConfigEnv
                {| app_id := Some (str "bull-chat"); firebase_config := None;
                   initial_auth_token := None |}) as [_ H].
    by specialize (H eq_refl eq_refl eq_refl).
Defined.

(** ** From page load to chat *)

(** X18: with a configuration provided, a page load followed by the
    auth listener reporting no user (the sign-in succeeds) and then the
    signed-in user brings up the chat for that user: one sign-in was
    attempted, the feed subscription is open, the list is empty with the
    hint shown, the input is empty, and nothing was written or logged. *)
Theorem page_load_to_chat
    (env : Env) (rnd : jsstring) (storage : gmap (list N) (list N))
    (uid : jsstring) :
  configProvided env ->
  uid <> [] ->
  let w := run env (pageLoad storage)
             [Mount rnd SdkReady; AuthStateChanged None None;
              AuthStateChanged (Some uid) None] in
  (exists name, name <> []
     /\ render (state w) = ChatScreen (Some uid) name true [] [])
  /\ subscribed w = true
  /\ signIn_calls w = [expectedSignIn env]
  /\ addDoc_calls w = [] /\ console_error w = []
  /\ localStorage w = storage.
Proof.
  intros Hc Huid. unfold run. simpl.
  destruct (initializeFirebase_provided env rnd (pageLoad storage) Hc) as [v ->].
  unfold loadUserName, localStorage_getItem, expectedSignIn, subscribed,
    authStateChanged. simpl.
  destruct uid as [|u uid]; [done|].
  destruct (storage !! chatUserName) as [[|c name]|], (initial_auth_token env);
    simpl; (split; [eexists; split; [|reflexivity]; done | done]).
Qed.

Lemma page_load_to_chat_witness :
  subscribed (run sampleEnv (pageLoad ∅)
                [Mount sampleRandom SdkReady; AuthStateChanged None None;
                 AuthStateChanged (Some (str "u1")) None])
  = true.
Proof.
  apply (page_load_to_chat sampleEnv sampleRandom ∅ (str "u1")); [|done].
  by exists (JObject [(str "projectId", JString (str "bull"))]), 0%nat.
Defined.
